(** * arm: the controller wrapper (util/torTools.py) and the log panel
    (interface/logPanel.py), embedded as Rocq functions.

    Python values are modelled as the code uses them: [str] as [string],
    [set] as stdpp's [gset string], [dict] as [gmap], [list] as [list];
    an operation that can raise returns a [result]; an operation on an
    object's fields takes the object's state and returns the new one. *)

From Stdlib Require Import ZArith String Ascii List Bool Lia DecimalString.
From stdpp Require Import gmap strings list.

Local Open Scope string_scope.
Local Open Scope Z_scope.

(** ** Python primitives used by the two modules *)

Module Py.

(** [len(s)] *)
Definition len (s : string) : Z := Z.of_nat (String.length s).

(** Truth value of a [str]: the empty string is false. *)
Definition str_truthy (s : string) : bool :=
  match s with EmptyString => false | String _ _ => true end.

(** Bound of a slice: a negative index counts from the end, and both ends
    are clipped to [0, len]. *)
Definition clip (n i : Z) : Z :=
  if i <? 0 then Z.max 0 (i + n) else Z.min i n.

(** [s[lo:hi]] *)
Definition slice (s : string) (lo hi : Z) : string :=
  let n := len s in
  let a := clip n lo in
  let b := clip n hi in
  if a <? b then String.substring (Z.to_nat a) (Z.to_nat (b - a)) s else "".

(** [s[:hi]] and [s[lo:]] *)
Definition slice_to (s : string) (hi : Z) : string := slice s 0 hi.
Definition slice_from (s : string) (lo : Z) : string := slice s lo (len s).

(** [s.find(sub)]: lowest index of [sub] in [s], [-1] when absent. *)
Fixpoint find_at (sub s : string) (i : Z) : Z :=
  if String.prefix sub s then i
  else match s with
       | EmptyString => -1
       | String _ t => find_at sub t (i + 1)
       end.
Definition find (s sub : string) : Z := find_at sub s 0.

(** [s.rfind(sub)]: highest index of [sub] in [s], [-1] when absent. *)
Fixpoint rfind_at (sub s : string) (i last : Z) : Z :=
  let last' := if String.prefix sub s then i else last in
  match s with
  | EmptyString => last'
  | String _ t => rfind_at sub t (i + 1) last'
  end.
Definition rfind (s sub : string) : Z := rfind_at sub s 0 (-1).

(** [sub in s] *)
Definition contains (sub s : string) : bool := negb (find s sub =? -1).

(** [s.startswith(p)] *)
Definition startswith (s p : string) : bool := String.prefix p s.

(** Whitespace of [str.strip()] and [str.split()]: space, tab, line feed,
    vertical tab, form feed, carriage return. *)
Definition isspace (c : ascii) : bool :=
  let n := nat_of_ascii c in
  (Nat.eqb n 32 || (Nat.leb 9 n && Nat.leb n 13))%bool.

Fixpoint lstrip (s : string) : string :=
  match s with
  | EmptyString => EmptyString
  | String c t => if isspace c then lstrip t else s
  end.

(** [rstrip] keeps a character when it is not a space or when something
    is kept after it. *)
Fixpoint rstrip (s : string) : string :=
  match s with
  | EmptyString => EmptyString
  | String c t =>
      match rstrip t with
      | EmptyString => if isspace c then EmptyString else String c EmptyString
      | r => String c r
      end
  end.

Definition strip (s : string) : string := rstrip (lstrip s).

(** [s.split()]: the maximal runs of non-space characters. [cur] is the
    run being read, reversed. *)
Fixpoint split_at (s : string) (cur : list ascii) : list string :=
  let flush (k : list string) :=
    match cur with
    | [] => k
    | _ => string_of_list_ascii (rev cur) :: k
    end in
  match s with
  | EmptyString => flush []
  | String c t =>
      if isspace c then flush (split_at t []) else split_at t (c :: cur)
  end.
Definition split (s : string) : list string := split_at s [].

(** [curses.ascii.isprint]: the codes 32 to 126. *)
Definition isprint (c : ascii) : bool :=
  let n := nat_of_ascii c in (Nat.leb 32 n && Nat.leb n 126)%bool.

(** [sep.join(l)] *)
Fixpoint join (sep : string) (l : list string) : string :=
  match l with
  | [] => ""
  | [x] => x
  | x :: t => x ++ sep ++ join sep t
  end.

(** [x in l] and [l.remove(x)] (the first occurrence) on a list of strings. *)
Definition mem (x : string) (l : list string) : bool :=
  existsb (String.eqb x) l.

Fixpoint remove (x : string) (l : list string) : list string :=
  match l with
  | [] => []
  | y :: t => if String.eqb x y then t else y :: remove x t
  end.

End Py.

(** The outcome of a call that can raise. *)
Inductive result (E A : Type) : Type :=
| Returned (a : A)
| Raised (e : E).
Arguments Returned {E A} a.
Arguments Raised {E A} e.

(** * interface/logPanel.py *)

Module LogPanel.

Definition MAX_LOG_ENTRIES : nat := 1000.

(** [TOR_EVENT_TYPES], in the order it is written. *)
Definition TOR_EVENT_TYPES : list (ascii * string) :=
  [ ("d"%char, "DEBUG");   ("a"%char, "ADDRMAP");      ("l"%char, "NEWDESC");  ("v"%char, "AUTHDIR_NEWDESCS");
    ("i"%char, "INFO");    ("b"%char, "BW");           ("m"%char, "NS");       ("x"%char, "STATUS_GENERAL");
    ("n"%char, "NOTICE");  ("c"%char, "CIRC");         ("o"%char, "ORCONN");   ("y"%char, "STATUS_CLIENT");
    ("w"%char, "WARN");    ("f"%char, "DESCCHANGED");  ("s"%char, "STREAM");   ("z"%char, "STATUS_SERVER");
    ("e"%char, "ERR");     ("g"%char, "GUARD");        ("t"%char, "STREAM_BW");
    ("k"%char, "NEWCONSENSUS"); ("u"%char, "CLIENTS_SEEN") ].

(** [TOR_EVENT_TYPES[flag]] when [flag in TOR_EVENT_TYPES]. *)
Fixpoint lookup_flag (flag : ascii) (tbl : list (ascii * string)) : option string :=
  match tbl with
  | [] => None
  | (k, v) :: t => if Ascii.eqb flag k then Some v else lookup_flag flag t
  end.

Definition ARM_RUNLEVELS : list string :=
  ["ARM_DEBUG"; "ARM_INFO"; "ARM_NOTICE"; "ARM_WARN"; "ARM_ERR"].

(** The set assigned on flag [A]. *)
Definition all_events : gset string :=
  list_to_set (map snd TOR_EVENT_TYPES ++ ARM_RUNLEVELS).

(** What one flag other than [A] and [X] does to [expandedEvents]:
    [Some] of the new set, or [None] when the flag is not recognized. *)
Definition expand_flag (flag : ascii) (expandedEvents : gset string) : option (gset string) :=
  if Ascii.eqb flag "C" then Some (expandedEvents ∪ {["TORCTL"]})
  else if Ascii.eqb flag "U" then Some (expandedEvents ∪ {["UNKNOWN"]})
  else if Ascii.eqb flag "D" then Some (expandedEvents ∪ list_to_set ["DEBUG"; "INFO"; "NOTICE"; "WARN"; "ERR"])
  else if Ascii.eqb flag "I" then Some (expandedEvents ∪ list_to_set ["INFO"; "NOTICE"; "WARN"; "ERR"])
  else if Ascii.eqb flag "N" then Some (expandedEvents ∪ list_to_set ["NOTICE"; "WARN"; "ERR"])
  else if Ascii.eqb flag "W" then Some (expandedEvents ∪ list_to_set ["WARN"; "ERR"])
  else if Ascii.eqb flag "E" then Some (expandedEvents ∪ {["ERR"]})
  else if Ascii.eqb flag "1" then Some (expandedEvents ∪ list_to_set ["ARM_DEBUG"; "ARM_INFO"; "ARM_NOTICE"; "ARM_WARN"; "ARM_ERR"])
  else if Ascii.eqb flag "2" then Some (expandedEvents ∪ list_to_set ["ARM_INFO"; "ARM_NOTICE"; "ARM_WARN"; "ARM_ERR"])
  else if Ascii.eqb flag "3" then Some (expandedEvents ∪ list_to_set ["ARM_NOTICE"; "ARM_WARN"; "ARM_ERR"])
  else if Ascii.eqb flag "4" then Some (expandedEvents ∪ list_to_set ["ARM_WARN"; "ARM_ERR"])
  else if Ascii.eqb flag "5" then Some (expandedEvents ∪ {["ARM_ERR"]})
  else match lookup_flag flag TOR_EVENT_TYPES with
       | Some name => Some (expandedEvents ∪ {[name]})
       | None => None
       end.

(** The [for flag in eventAbbr] loop: [A] and [X] assign the set and
    [break]; an unrecognized flag is appended to [invalidFlags]. *)
Fixpoint expand_loop (eventAbbr : string) (expandedEvents : gset string)
    (invalidFlags : string) : gset string * string :=
  match eventAbbr with
  | EmptyString => (expandedEvents, invalidFlags)
  | String flag rest =>
      if Ascii.eqb flag "A" then (all_events, invalidFlags)
      else if Ascii.eqb flag "X" then (∅, invalidFlags)
      else match expand_flag flag expandedEvents with
           | Some s => expand_loop rest s invalidFlags
           | None => expand_loop rest expandedEvents (invalidFlags ++ String flag "")
           end
  end.

(** [expandEvents(eventAbbr)]; [Raised p] is [ValueError(p)]. *)
Definition expandEvents (eventAbbr : string) : result string (gset string) :=
  let '(expandedEvents, invalidFlags) := expand_loop eventAbbr ∅ "" in
  if Py.str_truthy invalidFlags then Raised invalidFlags else Returned expandedEvents.

(** The vocabulary of the statements about [expandEvents]. *)

(** The characters [expandEvents] has a branch for. *)
Definition alphabet : list ascii :=
  list_ascii_of_string "AXCUDINWE12345" ++ map fst TOR_EVENT_TYPES.

Definition recognized (c : ascii) : bool := existsb (Ascii.eqb c) alphabet.

(** The characters of [flags] that are not recognized, in input order. *)
Fixpoint bad_chars (flags : string) : string :=
  match flags with
  | EmptyString => EmptyString
  | String c t => if recognized c then bad_chars t else String c (bad_chars t)
  end.

(** The characters the loop reads before it stops: those before the first
    [A] or [X], all of them when there is none. *)
Fixpoint scanned (flags : string) : string :=
  match flags with
  | EmptyString => EmptyString
  | String c t =>
      if Ascii.eqb c "A" || Ascii.eqb c "X" then EmptyString
      else String c (scanned t)
  end.

(** [c in flags] for a character. *)
Fixpoint has_char (c : ascii) (flags : string) : bool :=
  match flags with
  | EmptyString => false
  | String d t => Ascii.eqb c d || has_char c t
  end.

(** *** The log buffer *)

(** [msg] is a [str] or a list of lines ([isinstance(msg, str)]). *)
Inductive message : Type :=
| MsgStr (s : string)
| MsgList (lines : list string).

(** The fields of [LogMonitor] that the buffer operations read or write.
    [lastHeartbeat] holds a [time.time()] reading, [eventTimeOverwrite] the
    hour, minute and second of the overriding tuple, [win] whether the
    panel has a window, and [redraws] counts the calls of [redraw(True)]
    (which draws the panel and touches neither buffer). *)
Record LogMonitor : Type := mkLogMonitor {
  msgLog : list (string * string);
  isPaused : bool;
  pauseBuffer : list (string * string);
  lastHeartbeat : Z;
  eventTimeOverwrite : option (Z * Z * Z);
  win : bool;
  redraws : nat
}.

(** The buffers as [__init__] creates them. *)
Definition LogMonitor_init (now : Z) (hasWin : bool) : LogMonitor :=
  {| msgLog := []; isPaused := false; pauseBuffer := [];
     lastHeartbeat := now; eventTimeOverwrite := None;
     win := hasWin; redraws := 0 |}.

(** ["%02i" % n] *)
Definition fmt02i (n : Z) : string :=
  let d := NilZero.string_of_int (Z.to_int n) in
  if (0 <=? n) && (n <? 10) then "0" ++ d else d.

(** ["".join([char for char in msgLine if isprint(char)])] *)
Fixpoint printable (msgLine : string) : string :=
  match msgLine with
  | EmptyString => EmptyString
  | String c t => if Py.isprint c then String c (printable t) else printable t
  end.

(** The [for msgLine in msg] loop of [registerEvent], giving [toAdd]
    before it is reversed. *)
Fixpoint compose_lines (eventTime : Z * Z * Z) (type : string)
    (msg : list string) (firstLine : bool) : list string :=
  match msg with
  | [] => []
  | msgLine :: rest =>
      let msgLine := printable msgLine in
      let '(h, m, s) := eventTime in
      let header :=
        if firstLine
        then fmt02i h ++ ":" ++ fmt02i m ++ ":" ++ fmt02i s ++ " " ++ ("[" ++ type ++ "]")
        else "" in
      (header ++ " " ++ msgLine) :: compose_lines eventTime type rest false
  end.

(** [for msgLine in toAdd: buffer.insert(0, (msgLine, color))] *)
Definition insert_front (color : string) (toAdd : list string)
    (buffer : list (string * string)) : list (string * string) :=
  fold_left (fun buf msgLine => (msgLine, color) :: buf) toAdd buffer.

(** [if len(buffer) > MAX_LOG_ENTRIES: del buffer[MAX_LOG_ENTRIES:]] *)
Definition truncate (buffer : list (string * string)) : list (string * string) :=
  if Nat.ltb MAX_LOG_ENTRIES (length buffer) then firstn MAX_LOG_ENTRIES buffer else buffer.

(** [registerEvent(type, msg, color)]; [now] is the reading of
    [time.time()] and [localtime] the hour, minute and second of
    [time.localtime()]. *)
Definition registerEvent (type : string) (msg : message) (color : string)
    (now : Z) (localtime : Z * Z * Z) (self : LogMonitor) : LogMonitor :=
  let heartbeat := if negb (Py.startswith type "ARM") then now else lastHeartbeat self in
  let eventTime :=
    match eventTimeOverwrite self with
    | Some t => t
    | None => localtime
    end in
  let msg := match msg with MsgStr s => [s] | MsgList l => l end in
  let toAdd := rev (compose_lines eventTime type msg true) in
  if isPaused self then
    {| msgLog := msgLog self; isPaused := isPaused self;
       pauseBuffer := truncate (insert_front color toAdd (pauseBuffer self));
       lastHeartbeat := heartbeat; eventTimeOverwrite := eventTimeOverwrite self;
       win := win self; redraws := redraws self |}
  else
    {| msgLog := truncate (insert_front color toAdd (msgLog self));
       isPaused := isPaused self; pauseBuffer := pauseBuffer self;
       lastHeartbeat := heartbeat; eventTimeOverwrite := eventTimeOverwrite self;
       win := win self; redraws := S (redraws self) |}.

(** [setPaused(isPause)] *)
Definition setPaused (isPause : bool) (self : LogMonitor) : LogMonitor :=
  if Bool.eqb isPause (isPaused self) then self
  else if isPause then
    {| msgLog := msgLog self; isPaused := true; pauseBuffer := [];
       lastHeartbeat := lastHeartbeat self; eventTimeOverwrite := eventTimeOverwrite self;
       win := win self; redraws := redraws self |}
  else
    {| msgLog := firstn MAX_LOG_ENTRIES (pauseBuffer self ++ msgLog self);
       isPaused := false; pauseBuffer := pauseBuffer self;
       lastHeartbeat := lastHeartbeat self; eventTimeOverwrite := eventTimeOverwrite self;
       win := win self;
       redraws := if win self then S (redraws self) else redraws self |}.

(** [self.eventTimeOverwrite = ...]: the pre-populating loop of [__init__]
    stores the time of a log file's line before it hands the line to
    [registerEvent], and its [finally] block stores [None]. *)
Definition set_eventTimeOverwrite (t : option (Z * Z * Z)) (self : LogMonitor)
    : LogMonitor :=
  {| msgLog := msgLog self; isPaused := isPaused self; pauseBuffer := pauseBuffer self;
     lastHeartbeat := lastHeartbeat self; eventTimeOverwrite := t;
     win := win self; redraws := redraws self |}.

(** [self.lastHeartbeat = time.time()], the first line of
    [bandwidth_event]. *)
Definition set_lastHeartbeat (now : Z) (self : LogMonitor) : LogMonitor :=
  {| msgLog := msgLog self; isPaused := isPaused self; pauseBuffer := pauseBuffer self;
     lastHeartbeat := now; eventTimeOverwrite := eventTimeOverwrite self;
     win := win self; redraws := redraws self |}.

(** [self.win] belongs to the base class [panel.Panel], which assigns it
    when the panel is given a window; any assignment is allowed for. *)
Definition set_win (hasWin : bool) (self : LogMonitor) : LogMonitor :=
  {| msgLog := msgLog self; isPaused := isPaused self; pauseBuffer := pauseBuffer self;
     lastHeartbeat := lastHeartbeat self; eventTimeOverwrite := eventTimeOverwrite self;
     win := hasWin; redraws := redraws self |}.

(** The states a panel goes through: the fields as [__init__] first
    assigns them, then any sequence of [registerEvent] and [setPaused]
    calls and of the assignments to the other fields. The states inside
    [__init__] are among them: there the panel is paused, and for each
    line of the log file [eventTimeOverwrite] is assigned before the line
    reaches [registerEvent]. *)
Inductive reachable : LogMonitor -> Prop :=
| reach_init now hasWin : reachable (LogMonitor_init now hasWin)
| reach_register type msg color now localtime self :
    reachable self -> reachable (registerEvent type msg color now localtime self)
| reach_paused isPause self :
    reachable self -> reachable (setPaused isPause self)
| reach_overwrite t self :
    reachable self -> reachable (set_eventTimeOverwrite t self)
| reach_heartbeat now self :
    reachable self -> reachable (set_lastHeartbeat now self)
| reach_win hasWin self :
    reachable self -> reachable (set_win hasWin self).

(** The buffer a new entry goes to. *)
Definition active (self : LogMonitor) : list (string * string) :=
  if isPaused self then pauseBuffer self else msgLog self.

(** The entries of one [registerEvent] call, newest-first as stored. *)
Definition entries (eventTime : Z * Z * Z) (type : string) (msg : message)
    (color : string) : list (string * string) :=
  let msg := match msg with MsgStr s => [s] | MsgList l => l end in
  map (fun msgLine => (msgLine, color)) (compose_lines eventTime type msg true).

Definition bounded (self : LogMonitor) : Prop :=
  (length (msgLog self) <= MAX_LOG_ENTRIES)%nat /\
  (length (pauseBuffer self) <= MAX_LOG_ENTRIES)%nat.

(** *** Runlevel ranges and line wrapping *)

(** The loop variables of [parseRunlevelRanges]. *)
Record ranges : Type := mkRanges {
  eventsList : list string;
  runlevelLabels : list string;
  start : string;
  end_ : string;
  rangeLength : Z
}.

Definition runlevels : list string := ["DEBUG"; "INFO"; "NOTICE"; "WARN"; "ERR"; ""].

(** One iteration of [for level in runlevels]. *)
Definition range_step (searchPrefix : string) (r : ranges) (level : string) : ranges :=
  if Py.mem (searchPrefix ++ level) (eventsList r) then
    let eventsList' := Py.remove (searchPrefix ++ level) (eventsList r) in
    if Py.str_truthy (start r) then
      {| eventsList := eventsList'; runlevelLabels := runlevelLabels r;
         start := start r; end_ := level; rangeLength := rangeLength r + 1 |}
    else
      {| eventsList := eventsList'; runlevelLabels := runlevelLabels r;
         start := level; end_ := end_ r; rangeLength := 1 |}
  else if rangeLength r >? 0 then
    let added :=
      if rangeLength r =? 1 then [start r]
      else if rangeLength r =? 2 then [start r; end_ r]
      else [start r ++ " - " ++ end_ r] in
    {| eventsList := eventsList r; runlevelLabels := runlevelLabels r ++ added;
       start := ""; end_ := ""; rangeLength := 0 |}
  else r.

(** [parseRunlevelRanges(eventsList, searchPrefix)]: the returned labels
    and the list as the call leaves it. *)
Definition parseRunlevelRanges (eventsList0 : list string) (searchPrefix : string)
    : list string * list string :=
  let r := fold_left (range_step searchPrefix) runlevels
             {| eventsList := eventsList0; runlevelLabels := [];
                start := ""; end_ := ""; rangeLength := 0 |} in
  (runlevelLabels r, eventsList r).

(** The first half of [splitLine]: [(True, lastWordbreak)] when the line
    is cut at the word break, [(False, x - 2)] when it is hyphenated. *)
Definition split_point (message : string) (x : Z) : bool * Z :=
  let lastWordbreak := Py.rfind (Py.slice_to message x) " " in
  if x - lastWordbreak <? 10 then (true, lastWordbreak) else (false, x - 2).

(** [splitLine(message, x)] *)
Definition splitLine (message : string) (x : Z) : string * string :=
  let '(line1, line2) :=
    match split_point message x with
    | (true, lastWordbreak) =>
        (Py.slice_to message lastWordbreak,
         "  " ++ Py.strip (Py.slice_from message lastWordbreak))
    | (false, cut) =>
        (Py.slice_to message cut ++ "-",
         "  " ++ Py.strip (Py.slice_from message cut))
    end in
  let line2 :=
    if Py.len line2 >? x then
      let lastWordbreak := Py.rfind (Py.slice_to line2 (x - 4)) " " in
      let lastWordbreak :=
        if (x - lastWordbreak >? 10) || (lastWordbreak =? 1) then x - 4 else lastWordbreak in
      Py.slice_to line2 lastWordbreak ++ "..."
    else line2 in
  (line1, line2).

End LogPanel.


(** * util/torTools.py *)

Module TorTools.

(** [TOR_INIT, TOR_CLOSED = range(1, 3)] *)
Inductive status : Type := TOR_INIT | TOR_CLOSED.

(** The exceptions that occur: the three [getInfo] and [getOption] catch,
    and those Python raises on a missing index, attribute or key. *)
Inductive exc : Type :=
| SocketError
| ErrorReply (msg : string)
| TorCtlClosed
| IndexError
| AttributeError
| KeyError.

(** [except (socket.error, TorCtl.ErrorReply, TorCtl.TorCtlClosed)] *)
Definition caught (e : exc) : bool :=
  match e with
  | SocketError | ErrorReply _ | TorCtlClosed => true
  | _ => false
  end.

(** [type(exc) == TorCtl.TorCtlClosed] *)
Definition is_closed (e : exc) : bool :=
  match e with TorCtlClosed => true | _ => false end.

(** The values that pass through the cache and the query functions:
    [None], a [str], an [int], a list of [str]. *)
Inductive pyval : Type :=
| PNone
| PStr (s : string)
| PInt (n : Z)
| PList (l : list string).

(** Python's truth value. *)
Definition truthy (v : pyval) : bool :=
  match v with
  | PNone => false
  | PStr s => Py.str_truthy s
  | PInt n => negb (n =? 0)
  | PList l => match l with [] => false | _ => true end
  end.

(** [v == []] *)
Definition is_empty_list (v : pyval) : bool :=
  match v with PList [] => true | _ => false end.

#[global] Instance pyval_inhabited : Inhabited pyval := populate PNone.

Definition DROP_FAILED_EVENTS : bool := true.

Definition CACHE_ARGS : list string :=
  ["version"; "config-file"; "exit-policy/default"; "fingerprint";
   "config/names"; "info/names"; "features/names"; "events/names";
   "nsEntry"; "descEntry"; "bwRate"; "bwBurst"; "bwObserved";
   "bwMeasured"; "flags"; "pid"].

(** [UNKNOWN], the value cached for an undefined relay attribute. *)
Definition UNKNOWN : string := "UNKNOWN".

Definition REQ_EVENTS : list (string * string) :=
  [("NOTICE", "this will be unable to detect when tor is shut down");
   ("NEWDESC", "information related to descriptors will grow stale");
   ("NS", "information related to the consensus will grow stale");
   ("NEWCONSENSUS", "information related to the consensus will grow stale")].

(** [set(REQ_EVENTS.keys())] *)
Definition REQ_EVENT_KEYS : gset string := list_to_set (map fst REQ_EVENTS).

(** [dict([(arg, "") for arg in CACHE_ARGS])] *)
Definition empty_cache : gmap string pyval :=
  list_to_map (map (fun arg => (arg, PStr "")) CACHE_ARGS).

(** The double quote character, and the word [event] followed by a space
    and a double quote, which is searched in an error reply. *)
Definition dquote : string := String (ascii_of_nat 34) "".
Definition event_quote : string := "event " ++ dquote.

(** The interface of a TorCtl connection as the controller uses it. A call
    may change the connection, so each gives the connection after it.
    [get_info c param] stands for [c.get_info(param)[param]], and
    [set_events c l] for [c.set_events(l)]. *)
Class TorCtl (Conn : Type) : Type := {
  is_live : Conn -> bool;
  get_info : Conn -> string -> result exc (option string) * Conn;
  get_option : Conn -> string -> result exc (list (string * option string)) * Conn;
  set_events : Conn -> list string -> result exc unit * Conn
}.

Section Controller.

Context {Conn : Type} `{TorCtl Conn}.

(** The reading of [time.time()] during the call. *)
Variable now : Z.

(** The controller's fields, the module's [FAILED_EVENTS], and [started]:
    the argument of each [_notifyStatusListeners] thread that was started
    and has not run yet. The three listener lists are left out, as are the
    lock (the calls are taken one at a time) and the lines sent to the
    logger (they change none of these fields). *)
Record Controller : Type := mkController {
  conn : option Conn;
  controllerEvents : list string;
  _isReset : bool;
  _status : status;
  _statusTime : Z;
  lastHeartbeat : Z;
  _cachedParam : gmap string pyval;
  FAILED_EVENTS : gset string;
  started : list status
}.

(** [Controller.__init__], in a process whose [FAILED_EVENTS] is [failed]. *)
Definition Controller_init (failed : gset string) : Controller :=
  {| conn := None; controllerEvents := []; _isReset := false;
     _status := TOR_CLOSED; _statusTime := 0; lastHeartbeat := 0;
     _cachedParam := empty_cache; FAILED_EVENTS := failed; started := [] |}.

Definition set_conn (c : option Conn) (self : Controller) : Controller :=
  {| conn := c; controllerEvents := controllerEvents self; _isReset := _isReset self;
     _status := _status self; _statusTime := _statusTime self;
     lastHeartbeat := lastHeartbeat self; _cachedParam := _cachedParam self;
     FAILED_EVENTS := FAILED_EVENTS self; started := started self |}.

Definition set_cachedParam (m : gmap string pyval) (self : Controller) : Controller :=
  {| conn := conn self; controllerEvents := controllerEvents self; _isReset := _isReset self;
     _status := _status self; _statusTime := _statusTime self;
     lastHeartbeat := lastHeartbeat self; _cachedParam := m;
     FAILED_EVENTS := FAILED_EVENTS self; started := started self |}.

Definition set_controllerEvents (l : list string) (self : Controller) : Controller :=
  {| conn := conn self; controllerEvents := l; _isReset := _isReset self;
     _status := _status self; _statusTime := _statusTime self;
     lastHeartbeat := lastHeartbeat self; _cachedParam := _cachedParam self;
     FAILED_EVENTS := FAILED_EVENTS self; started := started self |}.

Definition set_FAILED_EVENTS (s : gset string) (self : Controller) : Controller :=
  {| conn := conn self; controllerEvents := controllerEvents self; _isReset := _isReset self;
     _status := _status self; _statusTime := _statusTime self;
     lastHeartbeat := lastHeartbeat self; _cachedParam := _cachedParam self;
     FAILED_EVENTS := s; started := started self |}.

(** [close()]. The connection's own [close()] is called on a connection
    the controller then forgets, so it leaves no trace here. *)
Definition close (self : Controller) : Controller :=
  match conn self with
  | Some _ =>
      {| conn := None; controllerEvents := controllerEvents self; _isReset := _isReset self;
         _status := TOR_CLOSED; _statusTime := now;
         lastHeartbeat := lastHeartbeat self; _cachedParam := _cachedParam self;
         FAILED_EVENTS := FAILED_EVENTS self; started := started self ++ [TOR_CLOSED] |}
  | None => self
  end.

(** [_notifyStatusListeners(eventType)], run by a started thread: the
    cache is reset before the listeners are called. *)
Definition _notifyStatusListeners (self : Controller) : Controller :=
  match started self with
  | [] => self
  | _ :: rest =>
      {| conn := conn self; controllerEvents := controllerEvents self; _isReset := _isReset self;
         _status := _status self; _statusTime := _statusTime self;
         lastHeartbeat := lastHeartbeat self; _cachedParam := empty_cache;
         FAILED_EVENTS := FAILED_EVENTS self; started := rest |}
  end.

(** [isAlive()] *)
Definition isAlive (self : Controller) : bool * Controller :=
  match conn self with
  | Some c => if is_live c then (true, self) else (false, close self)
  | None => (false, self)
  end.

(** [self._cachedParam[param]] *)
Definition cached (self : Controller) (param : string) : pyval :=
  _cachedParam self !!! param.

(** [getInfo(param, default, suppressExc)] *)
Definition getInfo (param : string) (default : pyval) (suppressExc : bool)
    (self : Controller) : result exc pyval * Controller :=
  let '(alive, self) := isAlive self in
  (* result, raisedExc, isFromCache after the [if self.isAlive()] block *)
  let block : result exc (pyval * option exc * bool) * Controller :=
    if alive then
      if Py.mem param CACHE_ARGS && truthy (cached self param) then
        (Returned (cached self param, None, true), self)
      else
        match conn self with
        | Some c =>
            let '(reply, c') := get_info c param in
            let self := set_conn (Some c') self in
            match reply with
            | Returned getInfoVal =>
                let result := match getInfoVal with Some v => PStr v | None => default end in
                (Returned (result, None, false), self)
            | Raised e =>
                if caught e then
                  (Returned (default, Some e, false), if is_closed e then close self else self)
                else (Raised e, self)
            end
        | None => (Raised AttributeError, self)
        end
    else (Returned (default, None, false), self) in
  match block with
  | (Raised e, self) => (Raised e, self)
  | (Returned (result, raisedExc, isFromCache), self) =>
      let self :=
        if negb isFromCache && truthy result && Py.mem param CACHE_ARGS
        then set_cachedParam (<[param := result]> (_cachedParam self)) self
        else self in
      match raisedExc with
      | Some e => if negb suppressExc then (Raised e, self) else (Returned result, self)
      | None => (Returned result, self)
      end
  end.

(** The values of a [get_option] reply that are not [None]. *)
Fixpoint option_values (l : list (string * option string)) : list string :=
  match l with
  | [] => []
  | (_, Some value) :: t => value :: option_values t
  | (_, None) :: t => option_values t
  end.

(** [getOption(param, default, multiple, suppressExc)] *)
Definition getOption (param : string) (default : pyval) (multiple suppressExc : bool)
    (self : Controller) : result exc pyval * Controller :=
  let '(alive, self) := isAlive self in
  (* result, raisedExc after the [if self.isAlive()] block *)
  let block : result exc (pyval * option exc) * Controller :=
    if alive then
      match conn self with
      | Some c =>
          let '(reply, c') := get_option c param in
          let self := set_conn (Some c') self in
          match reply with
          | Returned l =>
              if multiple then (Returned (PList (option_values l), None), self)
              else
                match l with
                | [] => (Raised IndexError, self)
                | (_, getConfVal) :: _ =>
                    let result := match getConfVal with Some v => PStr v | None => PList [] end in
                    (Returned (result, None), self)
                end
          | Raised e =>
              if caught e then
                (Returned (default, Some e), if is_closed e then close self else self)
              else (Raised e, self)
          end
      | None => (Raised AttributeError, self)
      end
    else (Returned (PList [], None), self) in
  match block with
  | (Raised e, self) => (Raised e, self)
  | (Returned (result, raisedExc), self) =>
      match raisedExc with
      | Some e =>
          if negb suppressExc then (Raised e, self)
          else if is_empty_list result then (Returned default, self)
          else (Returned result, self)
      | None =>
          if is_empty_list result then (Returned default, self)
          else (Returned result, self)
      end
  end.

(** [msg[start:end]] of the [Unrecognized event] branch. *)
Definition failed_type (msg : string) : string :=
  let start := Py.find msg event_quote + 7 in
  let end_ := Py.rfind msg dquote in
  Py.slice msg start end_.

(** The [while not isEventsSet and not isAbandoned] loop; [None] when the
    iterations allowed by [fuel] do not end it. The value returned is
    [isAbandoned] with [events] and [unavailableEvents]. *)
Fixpoint set_events_loop (fuel : nat) (self : Controller)
    (events unavailableEvents : gset string)
    : option (result exc (bool * gset string * gset string) * Controller) :=
  match fuel with
  | O => None
  | S fuel =>
      match conn self with
      | None => Some (Raised AttributeError, self)
      | Some c =>
          let '(reply, c') := set_events c (elements events) in
          let self := set_conn (Some c') self in
          match reply with
          | Returned _ => Some (Returned (false, events, unavailableEvents), self)
          | Raised (ErrorReply msg) =>
              if Py.contains "Unrecognized event" msg then
                let failedType := failed_type msg in
                set_events_loop fuel self (events ∖ {[failedType]})
                  (unavailableEvents ∪ {[failedType]})
              else Some (Returned (true, events, unavailableEvents), self)
          | Raised TorCtlClosed =>
              Some (Returned (true, events, unavailableEvents), close self)
          | Raised e => Some (Raised e, self)
          end
      end
  end.

(** The use of the [events/names] answer: [validEvents.split()] needs a
    [str]. Gives [events] and [unavailableEvents]. *)
Definition check_valid (validEvents : pyval) (events unavailableEvents : gset string)
    : result exc (gset string * gset string) :=
  if truthy validEvents then
    match validEvents with
    | PStr s =>
        let validEvents := list_to_set (Py.split s) in
        Returned (events ∩ validEvents, unavailableEvents ∪ (events ∖ validEvents))
    | _ => Raised AttributeError
    end
  else Returned (events, unavailableEvents).

(** [setControllerEvents(events)] *)
Definition setControllerEvents (fuel : nat) (events : list string) (self : Controller)
    : option (result exc (list string) * Controller) :=
  let '(alive, self) := isAlive self in
  if alive then
    let events0 : gset string := list_to_set events ∪ REQ_EVENT_KEYS in
    let unavailableEvents : gset string :=
      if DROP_FAILED_EVENTS then events0 ∩ FAILED_EVENTS self else ∅ in
    let events1 :=
      if DROP_FAILED_EVENTS then events0 ∖ FAILED_EVENTS self else events0 in
    match getInfo "events/names" PNone true self with
    | (Raised e, self) => Some (Raised e, self)
    | (Returned validEvents, self) =>
        match check_valid validEvents events1 unavailableEvents with
        | Raised e => Some (Raised e, self)
        | Returned (events2, unavailableEvents) =>
            match set_events_loop fuel self events2 unavailableEvents with
            | None => None
            | Some (Raised e, self) => Some (Raised e, self)
            | Some (Returned (isAbandoned, events3, unavailableEvents), self) =>
                let self := set_FAILED_EVENTS (FAILED_EVENTS self ∪ unavailableEvents) self in
                if isAbandoned then Some (Returned [], self)
                else Some (Returned (elements events3),
                           set_controllerEvents (elements events3) self)
            end
        end
    end
  else Some (Returned events, set_controllerEvents events self).

(** A connection that, when it answers [SETEVENTS] with an unrecognized
    event, names one of the events it was asked for. *)
Definition names_requested_event : Prop :=
  forall c l msg c',
    set_events c l = (Raised (ErrorReply msg), c') ->
    Py.contains "Unrecognized event" msg = true ->
    failed_type msg ∈ l.

End Controller.

Arguments Controller Conn : clear implicits.

(** A connection for examples: it stays as it is, answers [GETINFO] and
    [GETCONF] from two tables, and rejects the events of [unrecognized]
    one at a time, the way tor words it. *)
Record Scripted : Type := mkScripted {
  live : bool;
  info : string -> result exc (option string);
  options : string -> result exc (list (string * option string));
  unrecognized : list string
}.

Definition scripted_set_events (c : Scripted) (l : list string) : result exc unit :=
  match List.filter (fun e => Py.mem e (unrecognized c)) l with
  | [] => Returned tt
  | e :: _ => Raised (ErrorReply ("Unrecognized event " ++ dquote ++ e ++ dquote))
  end.

#[global] Instance Scripted_TorCtl : TorCtl Scripted := {|
  is_live c := live c;
  get_info c param := (info c param, c);
  get_option c param := (options c param, c);
  set_events c l := (scripted_set_events c l, c)
|}.

(** A controller that holds the connection [c], in a process that has
    failed to set no event yet. *)
Definition attached (c : Scripted) : Controller Scripted :=
  set_conn (Some c) (Controller_init ∅).

(** A tor whose [events/names] lists the required events, [BW] and [FOO],
    which answers every other [GETINFO] with an error reply and every
    [GETCONF] with an empty list, and which rejects [FOO] on [SETEVENTS]. *)
Definition example_tor : Scripted :=
  {| live := true;
     info := fun param =>
       if String.eqb param "events/names"
       then Returned (Some "NOTICE NEWDESC NS NEWCONSENSUS BW FOO")
       else Raised (ErrorReply "Unrecognized key");
     options := fun _ => Returned [];
     unrecognized := ["FOO"] |}.

(** A tor whose control connection closes on every [GETINFO]. *)
Definition closing_tor : Scripted :=
  {| live := true;
     info := fun _ => Raised TorCtlClosed;
     options := fun _ => Returned [];
     unrecognized := [] |}.

(** The state a call ends in; the state it started in when the fuel runs
    out. *)
Definition state_after {A : Type} (self : Controller Scripted)
    (r : option (A * Controller Scripted)) : Controller Scripted :=
  match r with
  | Some (_, self') => self'
  | None => self
  end.

(** The controller after a live tor rejected [FOO] and the connection was
    closed. *)
Definition after_rejection : Controller Scripted :=
  close 1 (state_after (attached example_tor)
             (setControllerEvents 0 10 ["FOO"] (attached example_tor))).

End TorTools.

(** * Facts about interface/logPanel.py *)

Module ExpandFacts.
Import LogPanel.

Lemma append_cons c (s t : string) : String c s ++ t = String c (s ++ t).
Proof. reflexivity. Qed.

Lemma has_char_cons c d t :
  has_char c (String d t) = Ascii.eqb d c || has_char c t.
Proof. simpl. now rewrite Ascii.eqb_sym. Qed.

Lemma append_empty_l (s : string) : "" ++ s = s.
Proof. reflexivity. Qed.

Lemma append_empty_r (s : string) : s ++ "" = s.
Proof.
  induction s as [|c s IH]; [reflexivity | now rewrite append_cons, IH].
Qed.

Lemma append_assoc (s t u : string) : (s ++ t) ++ u = s ++ (t ++ u).
Proof.
  induction s as [|c s IH]; [reflexivity | now rewrite !append_cons, IH].
Qed.

(** A flag other than [A] and [X] has a branch exactly when it is in the
    alphabet; the set it is added to plays no part. *)
Lemma expand_flag_recognized c ev :
  match expand_flag c ev with Some _ => true | None => false end
  = recognized c && negb (Ascii.eqb c "A") && negb (Ascii.eqb c "X").
Proof.
  assert (E : forall ev', match expand_flag c ev with Some _ => true | None => false end
                     = match expand_flag c ev' with Some _ => true | None => false end).
  { intros ev'. unfold expand_flag.
    repeat match goal with |- context [if ?b then _ else _] => destruct b; [reflexivity|] end.
    destruct (lookup_flag c TOR_EVENT_TYPES); reflexivity. }
  rewrite (E ∅). clear E.
  destruct c as [[] [] [] [] [] [] [] []]; vm_compute; reflexivity.
Qed.

(** [invalidFlags] after the loop: what it held before, then the
    unrecognized characters among those scanned. *)
Lemma expand_loop_invalid flags : forall ev inv,
  snd (expand_loop flags ev inv) = inv ++ bad_chars (scanned flags).
Proof.
  induction flags as [|c t IH]; intros ev inv; simpl.
  - now rewrite append_empty_r.
  - destruct (Ascii.eqb c "A") eqn:EA; simpl; [now rewrite append_empty_r|].
    destruct (Ascii.eqb c "X") eqn:EX; simpl; [now rewrite append_empty_r|].
    pose proof (expand_flag_recognized c ev) as R.
    rewrite EA, EX, !andb_true_r in R.
    destruct (expand_flag c ev) as [s|]; rewrite <- R, IH; [reflexivity|].
    now rewrite append_assoc, append_cons, append_empty_l.
Qed.

(** When an [X] is met before any [A], the loop leaves the empty set. *)
Lemma expand_loop_stops_at_X pre post : forall ev inv,
  has_char "A" pre = false ->
  fst (expand_loop (pre ++ String "X" post) ev inv) = ∅.
Proof.
  induction pre as [|c t IH]; intros ev inv HA.
  - reflexivity.
  - rewrite append_cons. rewrite has_char_cons in HA.
    apply orb_false_elim in HA as [HA Ht]. simpl.
    rewrite HA. destruct (Ascii.eqb c "X"); [reflexivity|].
    destruct (expand_flag c ev); now apply IH.
Qed.

Lemma scanned_stops_at_X pre post :
  has_char "A" pre = false ->
  scanned (pre ++ String "X" post) = scanned pre.
Proof.
  induction pre as [|c t IH]; intros HA.
  - reflexivity.
  - rewrite append_cons. rewrite has_char_cons in HA.
    apply orb_false_elim in HA as [HA Ht]. simpl.
    rewrite HA. simpl. destruct (Ascii.eqb c "X"); [reflexivity|].
    now rewrite IH.
Qed.

(** [expandEvents] in terms of the scanned characters. *)
Lemma expandEvents_unfold flags :
  expandEvents flags =
    if Py.str_truthy (bad_chars (scanned flags))
    then Raised (bad_chars (scanned flags))
    else Returned (fst (expand_loop flags ∅ "")).
Proof.
  unfold expandEvents.
  pose proof (expand_loop_invalid flags ∅ "") as E.
  destruct (expand_loop flags ∅ "") as [ev inv]. simpl in E.
  rewrite append_empty_l in E. now subst inv.
Qed.

(** C3, as the code has it: [expandEvents(flags)] raises exactly when one
    of the characters it scans, those before the first [A] or [X], is not
    recognized, and the payload is the unrecognized characters among the
    scanned ones, in input order. *)
Theorem expandEvents_raises_iff flags :
  ((exists p, expandEvents flags = Raised p) <-> bad_chars (scanned flags) <> "") /\
  (forall p, expandEvents flags = Raised p -> p = bad_chars (scanned flags)).
Proof.
  rewrite expandEvents_unfold.
  destruct (bad_chars (scanned flags)) as [|c b] eqn:E; simpl; split.
  - split; [intros [p Hp]; discriminate | congruence].
  - intros p Hp; discriminate.
  - split; [discriminate | intros _; eauto].
  - intros p Hp; congruence.
Qed.

(** C3, as stated, fails: in [Xq] the character [q] is not recognized,
    and the call returns the empty set instead of raising. *)
Lemma expandEvents_unrecognized_after_X :
  bad_chars "Xq" = "q" /\ expandEvents "Xq" = Returned ∅.
Proof. split; reflexivity. Qed.

(** C4, as the code has it: for a flag string in which an [X] comes with
    no [A] before it, whatever the characters [pre] before and [post]
    after that [X], a call that returns returns the empty set. The call
    does return, with the empty set, when every character scanned before
    the [X] is recognized, and it raises with the unrecognized ones
    otherwise. *)
Theorem expandEvents_X_first pre post :
  has_char "A" pre = false ->
  let flags := pre ++ String "X" post in
  (forall r, expandEvents flags = Returned r -> r = ∅) /\
  (bad_chars (scanned pre) = "" -> expandEvents flags = Returned ∅) /\
  (bad_chars (scanned pre) <> "" ->
     expandEvents flags = Raised (bad_chars (scanned pre))).
Proof.
  intros HA flags. unfold flags. rewrite expandEvents_unfold.
  rewrite (scanned_stops_at_X pre post HA), (expand_loop_stops_at_X pre post _ _ HA).
  destruct (bad_chars (scanned pre)) as [|c b]; simpl.
  - repeat split; [now intros r [= <-] | congruence].
  - repeat split; [discriminate | congruence].
Qed.

(** The example of C4: [cfX] has no [A] before its [X], [c] and [f] are
    recognized, and the call returns the empty set. *)
Lemma expandEvents_X_first_witness :
  has_char "A" "cf" = false /\
  bad_chars (scanned "cf") = "" /\
  expandEvents "cfX" = Returned ∅.
Proof.
  split; [reflexivity | split; [reflexivity|]].
  apply (proj1 (proj2 (expandEvents_X_first "cf" "" eq_refl))). reflexivity.
Defined.

Lemma BW_in_all_events : "BW" ∈ all_events.
Proof.
  unfold all_events. apply elem_of_list_to_set, list_elem_of_In.
  simpl. tauto.
Qed.

(** C4, as stated, fails: [AX] contains an [X], does not raise, and
    returns every event. *)
Lemma expandEvents_A_before_X :
  has_char "X" "AX" = true /\
  expandEvents "AX" = Returned all_events /\ all_events <> ∅.
Proof.
  split; [reflexivity | split; [reflexivity |]].
  intros E. pose proof BW_in_all_events as B. rewrite E in B.
  exact (not_elem_of_empty (C := gset string) "BW" B).
Qed.

End ExpandFacts.

Module BufferFacts.
Import LogPanel.
Local Open Scope list_scope.

(** Inserting the reversed batch one entry at a time at the front puts the
    batch, in its own order, before the old entries. *)
Lemma insert_front_rev color (lines : list string) buffer :
  insert_front color (rev lines) buffer
  = map (fun msgLine => (msgLine, color)) lines ++ buffer.
Proof.
  unfold insert_front. revert buffer. induction lines as [|x l IH]; intros buffer; [reflexivity|].
  simpl rev. rewrite fold_left_app. simpl. now rewrite IH.
Qed.

Lemma truncate_firstn buffer : truncate buffer = firstn MAX_LOG_ENTRIES buffer.
Proof.
  unfold truncate. destruct (Nat.ltb_spec MAX_LOG_ENTRIES (length buffer)) as [Hlt|Hle];
    [reflexivity | now rewrite firstn_all2].
Qed.

Lemma truncate_length buffer : (length (truncate buffer) <= MAX_LOG_ENTRIES)%nat.
Proof. rewrite truncate_firstn. apply firstn_le_length. Qed.

(** One [registerEvent] call: the batch goes in front of the active
    buffer, which is cut to its first [MAX_LOG_ENTRIES] entries; the other
    buffer and the pause state stay. *)
Lemma registerEvent_active type msg color now localtime self :
  let self' := registerEvent type msg color now localtime self in
  let eventTime :=
    match eventTimeOverwrite self with Some t => t | None => localtime end in
  active self' = firstn MAX_LOG_ENTRIES (entries eventTime type msg color ++ active self)
  /\ isPaused self' = isPaused self
  /\ (if isPaused self then msgLog self' = msgLog self
      else pauseBuffer self' = pauseBuffer self).
Proof.
  unfold registerEvent, active, entries.
  destruct (isPaused self) eqn:P; simpl; rewrite ?P;
    rewrite truncate_firstn, insert_front_rev; auto.
Qed.

Lemma registerEvent_bounded type msg color now localtime self :
  bounded self -> bounded (registerEvent type msg color now localtime self).
Proof.
  intros [Hm Hp]. unfold registerEvent, bounded.
  destruct (isPaused self); simpl; split; auto using truncate_length.
Qed.

Lemma setPaused_bounded isPause self :
  bounded self -> bounded (setPaused isPause self).
Proof.
  intros [Hm Hp]. unfold setPaused, bounded.
  destruct (Bool.eqb isPause (isPaused self)); [auto|].
  destruct isPause; simpl; split; auto using firstn_le_length.
  apply Nat.le_0_l.
Qed.

Lemma reachable_bounded self : reachable self -> bounded self.
Proof.
  induction 1 as [now hasWin | type msg color now localtime self _ IH
                  | isPause self _ IH | t self _ IH | now self _ IH | hasWin self _ IH].
  - split; apply Nat.le_0_l.
  - now apply registerEvent_bounded.
  - now apply setPaused_bounded.
  - exact IH.
  - exact IH.
  - exact IH.
Qed.

(** C6: in every state the panel reaches, the states inside [__init__]
    where [eventTimeOverwrite] is set included, neither buffer holds more
    than 1000 entries, and that stays so after a [registerEvent] call and
    after a [setPaused] call; what a call stores is the first 1000 entries
    of the new ones followed by the old ones, so the entries dropped are
    the oldest, at the tail. *)
Theorem log_buffers_bounded self :
  reachable self ->
  bounded self /\
  (forall type msg color now localtime,
     let self' := registerEvent type msg color now localtime self in
     let eventTime :=
       match eventTimeOverwrite self with Some t => t | None => localtime end in
     bounded self' /\
     active self' = firstn MAX_LOG_ENTRIES (entries eventTime type msg color ++ active self)) /\
  (forall isPause, bounded (setPaused isPause self)) /\
  (isPaused self = true ->
   msgLog (setPaused false self) = firstn MAX_LOG_ENTRIES (pauseBuffer self ++ msgLog self)).
Proof.
  intros R. pose proof (reachable_bounded self R) as B.
  split; [exact B|]. split; [|split].
  - intros type msg color now localtime. cbv zeta. split.
    + now apply registerEvent_bounded.
    + apply (registerEvent_active type msg color now localtime self).
  - intros isPause. now apply setPaused_bounded.
  - intros P. unfold setPaused. rewrite P. reflexivity.
Qed.

(** The theorem at a state inside [__init__]: the panel is paused, a line
    of the log file has set [eventTimeOverwrite] and has been registered,
    and the next line's time is stored. *)
Lemma log_buffers_bounded_witness :
  let self := set_eventTimeOverwrite (Some (12, 0, 1))
                (registerEvent "NOTICE" (MsgStr "Tor has opened a log file") "green" 7 (1, 2, 3)
                   (set_eventTimeOverwrite (Some (12, 0, 0))
                      (setPaused true (LogMonitor_init 0 false)))) in
  eventTimeOverwrite self = Some (12, 0, 1) /\
  isPaused self = true /\
  bounded self /\
  (forall type msg color now localtime,
     let self' := registerEvent type msg color now localtime self in
     bounded self' /\
     active self' = firstn MAX_LOG_ENTRIES (entries (12, 0, 1) type msg color ++ active self)) /\
  (forall isPause, bounded (setPaused isPause self)) /\
  msgLog (setPaused false self) = firstn MAX_LOG_ENTRIES (pauseBuffer self ++ msgLog self).
Proof.
  cbv zeta.
  destruct (log_buffers_bounded
              (set_eventTimeOverwrite (Some (12, 0, 1))
                 (registerEvent "NOTICE" (MsgStr "Tor has opened a log file") "green" 7 (1, 2, 3)
                    (set_eventTimeOverwrite (Some (12, 0, 0))
                       (setPaused true (LogMonitor_init 0 false))))))
    as (B & Hreg & Hpause & Hresume).
  - apply reach_overwrite, reach_register, reach_overwrite, reach_paused, reach_init.
  - split; [reflexivity | split; [reflexivity|]].
    split; [exact B | split; [exact Hreg | split; [exact Hpause | apply Hresume; reflexivity]]].
Defined.

(** C9: on a panel that is not paused and whose visible buffer is within
    the bound, [setPaused(True)] followed by [setPaused(False)] leaves the
    visible buffer as it was, and the panel not paused. *)
Theorem pause_unpause_identity self :
  isPaused self = false ->
  (length (msgLog self) <= MAX_LOG_ENTRIES)%nat ->
  msgLog (setPaused false (setPaused true self)) = msgLog self /\
  isPaused (setPaused false (setPaused true self)) = false.
Proof.
  intros P L. unfold setPaused. rewrite P. simpl. split; [|reflexivity].
  now apply firstn_all2.
Qed.

Lemma pause_unpause_identity_witness :
  let self := registerEvent "BW" (MsgStr "READ: 1, WRITTEN: 2") "cyan" 7 (1, 2, 3)
                (LogMonitor_init 0 true) in
  msgLog (setPaused false (setPaused true self)) = msgLog self /\
  isPaused (setPaused false (setPaused true self)) = false.
Proof.
  apply (pause_unpause_identity
           (registerEvent "BW" (MsgStr "READ: 1, WRITTEN: 2") "cyan" 7 (1, 2, 3)
              (LogMonitor_init 0 true))).
  - reflexivity.
  - unfold MAX_LOG_ENTRIES. simpl. lia.
Defined.

End BufferFacts.

Module LabelFacts.
Import LogPanel.

(** C7: the docstring's example of [parseRunlevelRanges]: the labels
    returned, and the list as the call leaves it. *)
Theorem parseRunlevelRanges_example :
  parseRunlevelRanges
    ["BW"; "ARM_WARN"; "ERR"; "ARM_ERR"; "ARM_DEBUG"; "ARM_NOTICE"] "ARM_"
  = (["DEBUG"; "NOTICE - ERR"], ["BW"; "ERR"]).
Proof. reflexivity. Qed.

(** The first branch of [splitLine] is taken when the gap is under ten,
    the hyphenating one from ten on. *)
Lemma split_point_spec message x :
  let lastWordbreak := Py.rfind (Py.slice_to message x) " " in
  split_point message x =
    if x - lastWordbreak <? 10 then (true, lastWordbreak) else (false, x - 2).
Proof. reflexivity. Qed.

Lemma split_point_hyphenates message x :
  10 <= x - Py.rfind (Py.slice_to message x) " " ->
  split_point message x = (false, x - 2).
Proof.
  intros G. unfold split_point.
  destruct (Z.ltb_spec (x - Py.rfind (Py.slice_to message x) " ") 10); [lia | reflexivity].
Qed.

(** C8 at a gap of exactly ten: the last space within the first 20
    characters is at index 10, and the line is hyphenated at 18 rather
    than cut at the space. *)
Theorem splitLine_gap_of_ten :
  let message := "aaaaaaaaaa bbbbbbbbbbbbbbbbbbbb" in
  Py.rfind (Py.slice_to message 20) " " = 10 /\
  splitLine message 20 = ("aaaaaaaaaa bbbbbbb-", "  bbbbbbbbbbbbb") /\
  fst (splitLine message 20) <> Py.slice_to message 10.
Proof. cbv zeta. split; [reflexivity | split; [reflexivity | discriminate]]. Qed.

End LabelFacts.

(** * Facts about util/torTools.py *)

Module ControllerFacts.
Import TorTools.

#[local] Arguments Py.mem : simpl never.
#[local] Set Warnings "-clear-no-such-hyp".

Section Generic.

Context {Conn : Type} `{TorCtl Conn}.
Variable now : Z.

Implicit Types (self : Controller Conn) (c : Conn).

Lemma isAlive_live self c :
  conn self = Some c -> is_live c = true -> isAlive now self = (true, self).
Proof. intros Hc Hl. unfold isAlive. now rewrite Hc, Hl. Qed.

Lemma close_FAILED_EVENTS self : FAILED_EVENTS (close now self) = FAILED_EVENTS self.
Proof. unfold close. now destruct (conn self). Qed.

Lemma isAlive_FAILED_EVENTS self :
  FAILED_EVENTS (snd (isAlive now self)) = FAILED_EVENTS self.
Proof.
  unfold isAlive. destruct (conn self) as [c|]; [|reflexivity].
  destruct (is_live c); [reflexivity | apply close_FAILED_EVENTS].
Qed.

(** C5: on a controller with a live connection, when the [GETINFO] query
    is issued and raises a socket error, an error reply or a closed
    connection error, [getInfo] catches it: it returns [default] when
    [suppressExc] is true and raises the same error otherwise. On the
    closed connection error it has called [close()]: the connection is
    dropped, the status is [TOR_CLOSED] as of now, and the listeners'
    thread is started. On the other two it has not: the controller keeps
    the connection and its status. *)
Theorem getInfo_query_error self c c' param default suppressExc e :
  conn self = Some c ->
  is_live c = true ->
  Py.mem param CACHE_ARGS && truthy (cached self param) = false ->
  get_info c param = (Raised e, c') ->
  e = SocketError \/ (exists msg, e = ErrorReply msg) \/ e = TorCtlClosed ->
  let out := getInfo now param default suppressExc self in
  fst out = (if suppressExc then Returned default else Raised e) /\
  (e = TorCtlClosed ->
     conn (snd out) = None /\ _status (snd out) = TOR_CLOSED /\
     _statusTime (snd out) = now /\
     started (snd out) = (started self ++ [TOR_CLOSED])%list) /\
  (e <> TorCtlClosed ->
     conn (snd out) = Some c' /\ _status (snd out) = _status self /\
     _statusTime (snd out) = _statusTime self /\
     started (snd out) = started self).
Proof.
  intros Hc Hl Hmiss Hq He. cbv zeta. unfold getInfo.
  rewrite (isAlive_live self c Hc Hl), Hmiss, Hc, Hq.
  clear Hmiss.
  destruct He as [-> | [[msg ->] | ->]]; simpl;
    destruct (Py.mem param CACHE_ARGS); destruct (truthy default);
    destruct suppressExc; simpl;
    repeat split; intros; try discriminate; try congruence; reflexivity.
Qed.

(** What [getInfo] leaves in [FAILED_EVENTS]. *)
Lemma getInfo_FAILED_EVENTS param default suppressExc self :
  FAILED_EVENTS (snd (getInfo now param default suppressExc self)) = FAILED_EVENTS self.
Proof.
  unfold getInfo.
  pose proof (isAlive_FAILED_EVENTS self) as A.
  destruct (isAlive now self) as [alive self1]. simpl in A. rewrite <- A. clear A.
  destruct alive; simpl.
  - destruct (Py.mem param CACHE_ARGS && truthy (cached self1 param)).
    + reflexivity.
    + destruct (conn self1) as [c|]; [|reflexivity].
      destruct (get_info c param) as [[v|e] c'].
      * destruct (Py.mem param CACHE_ARGS); destruct (truthy _); reflexivity.
      * destruct (caught e); [|reflexivity].
        destruct (Py.mem param CACHE_ARGS); destruct (truthy default);
          destruct (is_closed e); destruct suppressExc; simpl;
          rewrite ?close_FAILED_EVENTS; reflexivity.
  - destruct (Py.mem param CACHE_ARGS); destruct (truthy default); reflexivity.
Qed.

(** No connection, or a connection that is not live: whatever [default]
    counts as true goes into the cache of a cached key. *)
Lemma getInfo_not_alive_caches_default param default suppressExc self :
  fst (isAlive now self) = false ->
  truthy default = true ->
  Py.mem param CACHE_ARGS = true ->
  cached (snd (getInfo now param default suppressExc self)) param = default.
Proof.
  intros Ha Ht Hm. unfold getInfo.
  destruct (isAlive now self) as [alive self1]. simpl in Ha. subst alive.
  rewrite Ht, Hm. simpl. unfold cached. simpl.
  apply lookup_total_insert_eq.
Qed.

(** [getOption]: a reply without values gives [default], when all values
    are asked for or when the reply has a first entry. *)
Lemma getOption_no_values self c c' param default multiple suppressExc l :
  conn self = Some c ->
  is_live c = true ->
  get_option c param = (Returned l, c') ->
  option_values l = [] ->
  multiple = true \/ l <> [] ->
  fst (getOption now param default multiple suppressExc self) = Returned default.
Proof.
  intros Hc Hl Hq Hv Hm. unfold getOption.
  rewrite (isAlive_live self c Hc Hl), Hc, Hq.
  destruct multiple.
  - now rewrite Hv.
  - destruct Hm as [|Hne]; [discriminate|].
    destruct l as [|[k [v|]] t]; [congruence | discriminate | reflexivity].
Qed.

(** [getOption] returns an empty list only when [default] is one. *)
Lemma getOption_empty_list_is_default self param default multiple suppressExc v self' :
  getOption now param default multiple suppressExc self = (Returned v, self') ->
  is_empty_list v = true -> is_empty_list default = true.
Proof.
  unfold getOption. destruct (isAlive now self) as [[] self1].
  - destruct (conn self1) as [c|]; [|discriminate].
    destruct (get_option c param) as [[l|e] c'].
    + destruct multiple.
      * destruct (is_empty_list (PList (option_values l))) eqn:E;
          intros [= <- <-] Hv; congruence.
      * destruct l as [|[k [x|]] t]; [discriminate | |]; simpl;
          intros [= <- <-] Hv; [discriminate | exact Hv].
    + destruct (caught e); [|discriminate].
      destruct suppressExc; simpl; [|discriminate].
      destruct (is_empty_list default) eqn:E; intros [= <- <-] Hv; congruence.
  - simpl. intros [= <- <-] Hv; exact Hv.
Qed.

(** *** [setControllerEvents] *)

Lemma set_conn_FAILED_EVENTS o self :
  FAILED_EVENTS (set_conn o self) = FAILED_EVENTS self.
Proof. reflexivity. Qed.

(** The loop only takes events away from [events], and what it adds to
    [unavailableEvents] is no longer in [events]; it leaves
    [FAILED_EVENTS] alone. *)
Lemma set_events_loop_result fuel : forall self events unavailable
    isAbandoned events' unavailable' self',
  set_events_loop now fuel self events unavailable
    = Some (Returned (isAbandoned, events', unavailable'), self') ->
  events' ⊆ events /\
  (forall x, x ∈ unavailable' -> x ∈ unavailable \/ x ∉ events') /\
  FAILED_EVENTS self' = FAILED_EVENTS self.
Proof.
  induction fuel as [|fuel IH]; intros self events unavailable ab ev' un' self';
    simpl; [discriminate|].
  destruct (conn self) as [c|]; [|discriminate].
  destruct (set_events c (elements events)) as [[u|e] c'].
  - intros [= <- <- <- <-]. set_solver.
  - destruct e; try discriminate.
    + destruct (Py.contains "Unrecognized event" msg).
      * intros Hrun. apply IH in Hrun as (Hs & Hu & Hf).
        rewrite set_conn_FAILED_EVENTS in Hf.
        split; [set_solver | split; [|exact Hf]].
        intros x Hx. destruct (Hu x Hx) as [Hin|Hout]; [|now right].
        apply elem_of_union in Hin as [Hin|Hin]; [now left|].
        right. set_solver.
      * intros [= <- <- <- <-]. set_solver.
    + intros [= <- <- <- <-]. rewrite close_FAILED_EVENTS. set_solver.
Qed.

Lemma check_valid_result validEvents events unavailable events' unavailable' :
  check_valid validEvents events unavailable = Returned (events', unavailable') ->
  events' ⊆ events /\
  (forall x, x ∈ unavailable' -> x ∈ unavailable \/ x ∉ events').
Proof.
  unfold check_valid. destruct (truthy validEvents).
  - destruct validEvents; try discriminate. intros [= <- <-]. set_solver.
  - intros [= <- <-]. set_solver.
Qed.

(** On such a connection the loop ends within one more iteration than
    there are events. *)
Lemma set_events_loop_ends : names_requested_event ->
  forall fuel self events unavailable,
  (size events < fuel)%nat ->
  set_events_loop now fuel self events unavailable <> None.
Proof.
  intros WB. induction fuel as [|fuel IH]; intros self events unavailable Hsz;
    [lia|]. simpl.
  destruct (conn self) as [c|]; [|discriminate].
  destruct (set_events c (elements events)) as [[u|e] c'] eqn:Hq; [discriminate|].
  destruct e; try discriminate.
  destruct (Py.contains "Unrecognized event" msg) eqn:Hm; [|discriminate].
  apply IH. pose proof (WB _ _ _ _ Hq Hm) as Hin.
  apply elem_of_elements in Hin.
  assert (size (events ∖ {[failed_type msg]}) < size events)%nat; [|lia].
  apply subset_size. set_solver.
Qed.

(** C2, as the code has it: whenever [setControllerEvents(events)]
    returns, what it returns is among [events] and the required events;
    when the controller is alive at the call, none of it is in
    [FAILED_EVENTS] at the return; when it is not, [events] is returned as
    it is and [FAILED_EVENTS] is not consulted. On a connection that names
    a requested event whenever it rejects one, the call ends. *)
Theorem setControllerEvents_result events self :
  (forall fuel ret self',
     setControllerEvents now fuel events self = Some (Returned ret, self') ->
     (forall e, e ∈ ret -> e ∈ events \/ e ∈ REQ_EVENT_KEYS) /\
     (fst (isAlive now self) = true -> forall e, e ∈ ret -> e ∉ FAILED_EVENTS self') /\
     (fst (isAlive now self) = false ->
        ret = events /\ FAILED_EVENTS self' = FAILED_EVENTS self)) /\
  (names_requested_event ->
   exists fuel out, setControllerEvents now fuel events self = Some out).
Proof.
  split.
  - intros fuel ret self'. unfold setControllerEvents.
    pose proof (isAlive_FAILED_EVENTS self) as HF.
    destruct (isAlive now self) as [alive self1] eqn:Ha. simpl in HF. simpl fst.
    destruct alive.
    + unfold DROP_FAILED_EVENTS.
      pose proof (getInfo_FAILED_EVENTS "events/names" PNone true self1) as HG.
      destruct (getInfo now "events/names" PNone true self1) as [[v|e] self2];
        [|discriminate]. simpl in HG.
      destruct (check_valid v _ _) as [[ev2 un2]|e] eqn:Hcv; [|discriminate].
      apply check_valid_result in Hcv as (Hs2 & Hu2).
      destruct (set_events_loop now fuel self2 ev2 un2) as [[[[[ab ev3] un3]|e] self3]|]
        eqn:Hloop; [|discriminate|discriminate].
      apply set_events_loop_result in Hloop as (Hs3 & Hu3 & HF3).
      destruct ab; intros [= <- <-]; (split; [|split]); try discriminate.
      * intros e He. now apply elem_of_nil in He.
      * intros _ e He. now apply elem_of_nil in He.
      * intros e He. apply elem_of_elements in He.
        assert (e ∈ (list_to_set events ∪ REQ_EVENT_KEYS : gset string)) as Hin
          by set_solver.
        apply elem_of_union in Hin as [Hin|Hin]; [left | now right].
        now apply elem_of_list_to_set in Hin.
      * intros _ e He. apply elem_of_elements in He. simpl.
        rewrite HF3, HG, HF. intros Hbad.
        apply elem_of_union in Hbad as [Hbad|Hbad]; [set_solver|].
        destruct (Hu3 e Hbad) as [Hin2|Hout]; [|contradiction].
        destruct (Hu2 e Hin2) as [Hin1|Hout]; [|set_solver].
        set_solver.
    + intros [= <- <-]. split; [|split]; [auto | discriminate |].
      intros _. split; [reflexivity | exact HF].
  - intros WB. unfold setControllerEvents.
    destruct (isAlive now self) as [[] self1]; [|exists O; eauto].
    destruct (getInfo now "events/names" PNone true self1) as [[v|e] self2];
      [|exists O; eauto].
    destruct (check_valid v _ _) as [[ev2 un2]|e]; [|exists O; eauto].
    exists (S (size ev2)).
    pose proof (set_events_loop_ends WB (S (size ev2)) self2 ev2 un2 (Nat.lt_succ_diag_r _)) as Hne.
    destruct (set_events_loop now (S (size ev2)) self2 ev2 un2) as [[[[[ab ev3] un3]|e] self3]|];
      [|eauto|contradiction].
    destruct ab; eauto.
Qed.

End Generic.

(** *** The scripted connection *)

Lemma length_append (s t : string) :
  String.length (s ++ t) = (String.length s + String.length t)%nat.
Proof.
  induction s as [|c s IH]; [reflexivity|].
  change (String c s ++ t) with (String c (s ++ t)). simpl. now rewrite IH.
Qed.

Lemma len_append (s t : string) : Py.len (s ++ t) = Py.len s + Py.len t.
Proof. unfold Py.len. rewrite length_append. lia. Qed.

Lemma len_cons c s : Py.len (String c s) = Py.len s + 1.
Proof. unfold Py.len. simpl String.length. lia. Qed.

(** The last occurrence of a character that ends the string. *)
Lemma rfind_at_last q s : forall i last,
  Py.rfind_at (String q "") (s ++ String q "") i last = i + Py.len s.
Proof.
  induction s as [|c s IH]; intros i last.
  - change ("" ++ String q "") with (String q ""). simpl.
    destruct (ascii_dec q q) as [_|N]; [unfold Py.len; simpl; lia | congruence].
  - change (String c s ++ String q "") with (String c (s ++ String q "")).
    simpl Py.rfind_at. rewrite IH, len_cons. lia.
Qed.

Lemma substring_whole s t : String.substring 0 (String.length s) (s ++ t) = s.
Proof.
  induction s as [|c s IH].
  - destruct t; reflexivity.
  - change (String c s ++ t) with (String c (s ++ t)). simpl. now rewrite IH.
Qed.

(** The event that [failed_type] reads in a rejection worded as tor does. *)
Lemma failed_type_rejection e :
  failed_type ("Unrecognized event " ++ dquote ++ e ++ dquote) = e.
Proof.
  unfold failed_type.
  assert (Hf : Py.find ("Unrecognized event " ++ dquote ++ e ++ dquote) event_quote = 13)
    by (destruct e; reflexivity).
  rewrite Hf.
  assert (Hr : Py.rfind ("Unrecognized event " ++ dquote ++ e ++ dquote) dquote
               = 20 + Py.len e).
  { unfold Py.rfind, dquote.
    rewrite <- !ExpandFacts.append_assoc, rfind_at_last.
    rewrite !len_append.
    change (Py.len "Unrecognized event ") with 19.
    change (Py.len (String (ascii_of_nat 34) "")) with 1. lia. }
  rewrite Hr. unfold Py.slice.
  assert (Hl : Py.len ("Unrecognized event " ++ dquote ++ e ++ dquote) = 21 + Py.len e).
  { rewrite !len_append.
    change (Py.len "Unrecognized event ") with 19.
    change (Py.len dquote) with 1. lia. }
  rewrite Hl. unfold Py.clip.
  assert (0 <= Py.len e) by (unfold Py.len; lia).
  destruct (Z.ltb_spec (13 + 7) 0); [lia|].
  destruct (Z.ltb_spec (20 + Py.len e) 0); [lia|].
  rewrite !Z.min_l by lia.
  destruct (Z.ltb_spec (13 + 7) (20 + Py.len e)) as [Hlt|Hge].
  - replace (Z.to_nat (20 + Py.len e - (13 + 7))) with (String.length e)
      by (unfold Py.len; lia).
    change (Z.to_nat (13 + 7)) with 20%nat.
    change ("Unrecognized event " ++ dquote ++ e ++ dquote)
      with ("Unrecognized event " ++ String (ascii_of_nat 34) (e ++ dquote)).
    simpl String.substring. apply substring_whole.
  - destruct e; [reflexivity|]. unfold Py.len in Hge.
    simpl String.length in Hge. lia.
Qed.

Lemma Scripted_names_requested_event : names_requested_event (Conn := Scripted).
Proof.
  intros c l msg c' Hq Hm. simpl in Hq. unfold scripted_set_events in Hq.
  destruct (List.filter _ l) as [|e t] eqn:Hf; [discriminate|].
  injection Hq as <- _. rewrite failed_type_rejection.
  apply list_elem_of_In.
  apply (proj1 (filter_In (fun e => Py.mem e (unrecognized c)) e l)).
  rewrite Hf. now left.
Qed.

(** C1 on the code: a [getInfo] call with a default, made while there is
    no connection, writes the default into the cache; so does a call whose
    query is answered with an error reply, and the next call for the key
    is then answered from the cache with that default. *)
Theorem getInfo_caches_default :
  let unattached : Controller Scripted := Controller_init ∅ in
  cached (snd (getInfo 0 "version" (PStr "unknown") true unattached)) "version"
    = PStr "unknown" /\
  let out := getInfo 0 "version" (PStr "unknown") true (attached example_tor) in
  get_info example_tor "version" = (Raised (ErrorReply "Unrecognized key"), example_tor) /\
  fst out = Returned (PStr "unknown") /\
  cached (snd out) "version" = PStr "unknown" /\
  fst (getInfo 0 "version" PNone true (snd out)) = Returned (PStr "unknown").
Proof. cbv zeta. repeat split; vm_compute; reflexivity. Qed.

(** The theorem at a tor that closes the connection on the query, the
    error suppressed, and at a tor that answers with an error reply, the
    error not suppressed. *)
Lemma getInfo_query_error_witness :
  (let out := getInfo 5 "version" (PStr "unknown") true (attached closing_tor) in
   get_info closing_tor "version" = (Raised TorCtlClosed, closing_tor) /\
   fst out = Returned (PStr "unknown") /\
   conn (snd out) = None /\ _status (snd out) = TOR_CLOSED /\
   _statusTime (snd out) = 5 /\ started (snd out) = [TOR_CLOSED]) /\
  (let out := getInfo 5 "version" (PStr "unknown") false (attached example_tor) in
   get_info example_tor "version" = (Raised (ErrorReply "Unrecognized key"), example_tor) /\
   fst out = Raised (ErrorReply "Unrecognized key") /\
   conn (snd out) = Some example_tor /\ _status (snd out) = TOR_CLOSED /\
   _statusTime (snd out) = 0 /\ started (snd out) = []).
Proof.
  cbv zeta. split.
  - destruct (getInfo_query_error 5 (attached closing_tor) closing_tor closing_tor
                "version" (PStr "unknown") true TorCtlClosed)
      as (Hret & Hclosed & _); try reflexivity.
    + right; right; reflexivity.
    + split; [reflexivity | split; [exact Hret | exact (Hclosed eq_refl)]].
  - destruct (getInfo_query_error 5 (attached example_tor) example_tor example_tor
                "version" (PStr "unknown") false (ErrorReply "Unrecognized key"))
      as (Hret & _ & Hkept); try reflexivity.
    + right; left; eexists; reflexivity.
    + split; [reflexivity | split; [exact Hret | apply Hkept; discriminate]].
Defined.

(** C10 on the code: with [multiple] false, a [GETCONF] reply that is an
    empty list makes [getOption] raise [IndexError] instead of returning
    [default]; with [multiple] true the same reply gives [default]. *)
Theorem getOption_empty_reply :
  get_option example_tor "Log" = (Returned [], example_tor) /\
  fst (getOption 0 "Log" (PStr "d") false true (attached example_tor)) = Raised IndexError /\
  fst (getOption 0 "Log" (PStr "d") true true (attached example_tor)) = Returned (PStr "d").
Proof. repeat split; vm_compute; reflexivity. Qed.

(** C2, as stated, fails when there is no live connection: after tor has
    rejected [FOO] and the connection was closed, [setControllerEvents]
    returns [FOO], which is in [FAILED_EVENTS]. *)
Lemma setControllerEvents_not_alive_returns_failed :
  fst (isAlive 2 after_rejection) = false /\
  exists self',
    setControllerEvents 2 10 ["FOO"] after_rejection = Some (Returned ["FOO"], self') /\
    "FOO" ∈ FAILED_EVENTS self'.
Proof.
  split; [reflexivity|]. eexists. split; [vm_compute; reflexivity|].
  vm_compute. reflexivity.
Qed.

(** Scenario 6 of the specification: a live tor rejects [FOO]; the
    required events are set, and [FOO] is in [FAILED_EVENTS] afterwards. *)
Example setControllerEvents_rejects_FOO :
  let out := setControllerEvents 0 10 ["FOO"] (attached example_tor) in
  option_map fst out = Some (Returned ["NOTICE"; "NS"; "NEWCONSENSUS"; "NEWDESC"]) /\
  FAILED_EVENTS (state_after (attached example_tor) out) = {["FOO"]}.
Proof. cbv zeta. split; vm_compute; reflexivity. Qed.

Lemma setControllerEvents_result_witness :
  (forall fuel ret self',
     setControllerEvents 0 fuel ["FOO"; "BW"] (attached example_tor)
       = Some (Returned ret, self') ->
     (forall e, e ∈ ret -> e ∈ ["FOO"; "BW"] \/ e ∈ REQ_EVENT_KEYS) /\
     (fst (isAlive 0 (attached example_tor)) = true ->
        forall e, e ∈ ret -> e ∉ FAILED_EVENTS self') /\
     (fst (isAlive 0 (attached example_tor)) = false ->
        ret = ["FOO"; "BW"] /\
        FAILED_EVENTS self' = FAILED_EVENTS (attached example_tor))) /\
  (exists fuel out,
     setControllerEvents 0 fuel ["FOO"; "BW"] (attached example_tor) = Some out).
Proof.
  destruct (setControllerEvents_result 0 ["FOO"; "BW"] (attached example_tor))
    as [Hret Hends].
  split; [exact Hret | exact (Hends Scripted_names_requested_event)].
Defined.

End ControllerFacts.
